(** * Provider routing and error normalisation of the Aether Streamlit gateway

    A shallow embedding of [serviceproxy/gateway_on_streamlit]:
    [utils.py] (the two exception normalisers), [exceptions.py],
    [schemas.py] and the routing part of [run.py] ([_google_generate],
    [_azure_generate], [invoke] and the handler of one chat turn). *)

From Stdlib Require Import ZArith.
From stdpp Require Import base option strings gmap list.

Open Scope string_scope.
Local Set Warnings "-register-all".

(** ** Python values

    The values that flow through the router: what [json.loads] can give
    back ([None], booleans, integers, strings, lists and [dict]s keyed by
    strings) and what the SDK responses hold. *)

Inductive pyval : Type :=
| PNone
| PBool (b : bool)
| PInt (n : Z)
| PStr (s : string)
| PList (l : list pyval)
| PDict (d : gmap string pyval).

(** [x is None]. *)
Definition is_none (v : pyval) : bool :=
  match v with PNone => true | _ => false end.

(** Truth value of a [str], as tested by [if prompt:]. *)
Definition str_truthy (s : string) : bool :=
  match s with EmptyString => false | String _ _ => true end.

(** Name of the Python type of a value, as it appears in the text of an
    [AttributeError]. *)
Definition type_name (v : pyval) : string :=
  match v with
  | PNone => "NoneType"
  | PBool _ => "bool"
  | PInt _ => "int"
  | PStr _ => "str"
  | PList _ => "list"
  | PDict _ => "dict"
  end.

(** ** Exceptions

    The SDK errors carry what the normalisers read from them: [repr(exc)],
    and for Gemini the outcome of [exc.response.json()], for OpenAI the
    attribute [exc.body]. *)

Inductive json_outcome : Type :=
| JsonValue (v : pyval)          (* [exc.response.json()] gives [v] *)
| JsonRaises (r : string).       (* evaluating it raises; [r] is the repr *)

Record GoogleAPIError : Type := {
  google_repr : string;
  google_response_json : json_outcome
}.

Record APIError : Type := {
  openai_repr : string;
  openai_body : pyval
}.

(** Subclasses of [Exception] that can travel through the router. *)
Inductive exn : Type :=
| EGoogleAPIError (e : GoogleAPIError)
| EOpenAIAPIError (e : APIError)
| LLMProviderNotFoundException
| NoResponseException
| UnboundLocalError (var : string)
| AttributeError (ty attr : string)
| IndexError
| OtherException (r : string).

Inductive result (A : Type) : Type :=
| Ok (a : A)
| Raise (e : exn).
Arguments Ok {A} a.
Arguments Raise {A} e.

(** [str(l)] of a list of strings that hold no quote. *)
Fixpoint repr_items (l : list string) : string :=
  match l with
  | [] => ""
  | [x] => "'" ++ x ++ "'"
  | x :: rest => "'" ++ x ++ "', " ++ repr_items rest
  end.

Definition repr_list (l : list string) : string := "[" ++ repr_items l ++ "]".

(** ** utils.py *)

(** [obj.get(key, default)]: the stored value when [obj] is a [dict] that
    has [key], [default] when it is a [dict] that has not; any other value
    has no attribute [get]. *)
Definition py_get (obj : pyval) (key : string) (dflt : pyval) : result pyval :=
  match obj with
  | PDict d => Ok (default dflt (d !! key))
  | _ => Raise (AttributeError (type_name obj) "get")
  end.

Definition handle_gemini_exception (exc : GoogleAPIError) : result pyval :=
  match google_response_json exc with
  | JsonRaises r => Raise (OtherException r)
  | JsonValue body =>
      match py_get body "error" (PDict ∅) with
      | Raise e => Raise e
      | Ok err => py_get err "message" (PStr (google_repr exc))
      end
  end.

Definition handle_azure_exception (exc : APIError) : result pyval :=
  py_get (openai_body exc) "message" (PStr (openai_repr exc)).

(** ** schemas.py *)

Record SecretVariables : Type := {
  aether_api_key : string;
  aether_proxy_endpoint : string;
  azure_api_key : string;
  azure_endpoint : string;
  azure_openai_api_version : string;
  azure_provider_deployment : string;
  google_api_key : string
}.

(** ** The SDK clients and the Streamlit session, as the router sees them *)

(** Arguments of [genai.configure]; an argument that is not passed is
    [None] and leaves the SDK's own default in force. *)
Record genai_settings : Type := {
  genai_api_key : string;
  genai_transport : option string;
  genai_api_endpoint : option string
}.

(** Arguments of the [AzureOpenAI] constructor. *)
Record azure_settings : Type := {
  client_api_key : string;
  client_azure_endpoint : string;
  client_api_version : string
}.

(** [response.choices[i].message.content] of a chat completion. *)
Record ChatCompletionMessage : Type := { content : option string }.
Record Choice : Type := { message : ChatCompletionMessage }.
Record ChatCompletion : Type := { choices : list Choice }.

(** The two vendor back ends, as black boxes: what one request gives for
    the client settings in force.  For Gemini the outcome is that of
    [model.generate_content(prompt)] followed by [response.text]. *)
Record Backend : Type := {
  generate_content :
    option genai_settings -> string -> string -> result string;
  chat_completions_create :
    azure_settings -> string -> list (string * string) -> result ChatCompletion
}.

(** What the router does to the outside, in order. *)
Inductive event : Type :=
| EvGenaiConfigure (c : genai_settings)
| EvAzureOpenAI (c : azure_settings)
| EvGenerateContent (model_name prompt : string)
| EvChatCompletionsCreate (model_name : string) (messages : list (string * string))
| EvLogInfo (text : string)             (* [logger.info] *)
| EvLogException (e : exn)              (* [logger.exception("Error: %s", repr(e))] *)
| EvStError (e : exn)                   (* [st.error(f"Error in invoke: {repr(e)}")] *)
| EvStMarkdown (role : string) (body : pyval).

(** [st.session_state]. *)
Record session_state : Type := {
  messages : list (string * pyval);
  is_enterprise_mode : bool;
  llm_provider : string;
  model_selected : option string
}.

(** Everything mutable the module can reach: the module-level
    [secret_variables], the global configuration held by the [genai]
    package, the Streamlit session and the trace of outside effects. *)
Record world : Type := {
  secret_variables : SecretVariables;
  genai_config : option genai_settings;
  session : session_state;
  trace : list event
}.

Definition set_genai_config (c : genai_settings) (w : world) : world :=
  {| secret_variables := secret_variables w;
     genai_config := Some c;
     session := session w;
     trace := trace w |}.

Definition add_event (ev : event) (w : world) : world :=
  {| secret_variables := secret_variables w;
     genai_config := genai_config w;
     session := session w;
     trace := trace w ++ [ev] |}.

Definition add_message (m : string * pyval) (w : world) : world :=
  {| secret_variables := secret_variables w;
     genai_config := genai_config w;
     session :=
       {| messages := messages (session w) ++ [m];
          is_enterprise_mode := is_enterprise_mode (session w);
          llm_provider := llm_provider (session w);
          model_selected := model_selected (session w) |};
     trace := trace w |}.

(** ** Statements that may raise and that act on the world *)

Definition M (A : Type) : Type := world -> result A * world.

#[global] Instance M_ret : MRet M := fun A a w => (Ok a, w).

#[global] Instance M_bind : MBind M := fun A B f m w =>
  match m w with
  | (Ok a, w') => f a w'
  | (Raise e, w') => (Raise e, w')
  end.

Definition raise {A : Type} (e : exn) : M A := fun w => (Raise e, w).

Definition lift {A : Type} (r : result A) : M A := fun w => (r, w).

Definition emit (ev : event) : M unit := fun w => (Ok tt, add_event ev w).

Definition read {A : Type} (f : world -> A) : M A := fun w => (Ok (f w), w).

(** [try: body except C as e: handler], where [select] tells whether the
    exception is an instance of [C]. *)
Definition try_except {A X : Type} (body : M A) (select : exn -> option X)
    (handler : X -> M A) : M A := fun w =>
  match body w with
  | (Ok a, w') => (Ok a, w')
  | (Raise e, w') =>
      match select e with
      | Some x => handler x w'
      | None => (Raise e, w')
      end
  end.

Definition as_GoogleAPIError (e : exn) : option GoogleAPIError :=
  match e with EGoogleAPIError g => Some g | _ => None end.

Definition as_OpenAIAPIError (e : exn) : option APIError :=
  match e with EOpenAIAPIError a => Some a | _ => None end.

(** Every value of [exn] is an instance of [Exception]. *)
Definition as_Exception (e : exn) : option exn := Some e.

(** ** exceptions.py and run.py *)

Section Router.

(** [constants.LLM_PROVIDERS] is not part of the sources at hand, and the
    vendor back ends are outside the program. *)
Variable LLM_PROVIDERS : list string.
Variable backend : Backend.

(** The class attribute [message] of the two exception classes of
    [exceptions.py]. *)
Definition exception_message (e : exn) : option string :=
  match e with
  | LLMProviderNotFoundException =>
      Some ("The LLM provider must be one of the following: "
            ++ repr_list LLM_PROVIDERS)
  | NoResponseException => Some "The LLM did not return a response."
  | _ => None
  end.

(** The settings [_google_generate] passes to [genai.configure]. *)
Definition google_settings (sv : SecretVariables) (enterprise : bool)
    : genai_settings :=
  if enterprise then
    {| genai_api_key := aether_api_key sv;
       genai_transport := Some "rest";
       genai_api_endpoint := Some (aether_proxy_endpoint sv) |}
  else
    {| genai_api_key := google_api_key sv;
       genai_transport := None;
       genai_api_endpoint := None |}.

(** The settings [_azure_generate] builds its [AzureOpenAI] client from. *)
Definition azure_client_settings (sv : SecretVariables) (enterprise : bool)
    : azure_settings :=
  if enterprise then
    {| client_api_key := aether_api_key sv;
       client_azure_endpoint := aether_proxy_endpoint sv;
       client_api_version := azure_openai_api_version sv |}
  else
    {| client_api_key := azure_api_key sv;
       client_azure_endpoint := azure_endpoint sv;
       client_api_version := azure_openai_api_version sv |}.

(** [genai.configure(...)] replaces the package's global configuration. *)
Definition genai_configure (c : genai_settings) : M unit := fun w =>
  (Ok tt, add_event (EvGenaiConfigure c) (set_genai_config c w)).

(** [genai.GenerativeModel(model_name).generate_content(prompt)] and the
    [text] of the response; the request goes out with the global
    configuration of the package. *)
Definition model_generate_content (model_name prompt : string) : M string :=
  cfg ← read genai_config;
  emit (EvGenerateContent model_name prompt);;
  lift (generate_content backend cfg model_name prompt).

Definition client_chat_completions_create (client : azure_settings)
    (model_name : string) (msgs : list (string * string)) : M ChatCompletion :=
  emit (EvChatCompletionsCreate model_name msgs);;
  lift (chat_completions_create backend client model_name msgs).

Definition option_to_pyval (o : option string) : pyval :=
  match o with Some s => PStr s | None => PNone end.

Definition _google_generate (prompt model_name : string)
    (enterprise : bool) : M pyval :=
  sv ← read secret_variables;
  genai_configure (google_settings sv enterprise);;
  try_except
    (text ← model_generate_content model_name prompt;
     emit (EvLogInfo ("LLM response: " ++ text));;
     mret (PStr text))
    as_GoogleAPIError
    (fun e =>
       emit (EvLogException (EGoogleAPIError e));;
       lift (handle_gemini_exception e)).

Definition _azure_generate (prompt model_name : string)
    (enterprise : bool) : M pyval :=
  sv ← read secret_variables;
  let client := azure_client_settings sv enterprise in
  emit (EvAzureOpenAI client);;
  try_except
    (response ← client_chat_completions_create client model_name
                  [("user", prompt)];
     match choices response with
     | [] => raise IndexError
     | c :: _ => mret (option_to_pyval (content (message c)))
     end)
    as_OpenAIAPIError
    (fun e =>
       emit (EvLogException (EOpenAIAPIError e));;
       lift (handle_azure_exception e)).

Definition empty_prompt_text : string :=
  "Your prompt is empty; please re-type your prompt and try again!".

Definition error_text : string :=
  "An error occurred while processing the request.".

(** The [try] block of [invoke].  The local [response] is [None] here as
    long as no branch has bound it. *)
Definition invoke_body (prompt provider model_name : string)
    (enterprise : bool) : M pyval :=
  if str_truthy prompt then
    response ←
      (if String.eqb provider "google-generativeai" then
         r ← _google_generate prompt model_name enterprise; mret (Some r)
       else if String.eqb provider "azure-openai" then
         r ← _azure_generate prompt model_name enterprise; mret (Some r)
       else mret None);
    match response with
    | None => raise (UnboundLocalError "response")
    | Some r => if is_none r then raise NoResponseException else mret r
    end
  else mret (PStr empty_prompt_text).

Definition invoke (prompt provider model_name : string)
    (enterprise : bool) : M pyval :=
  try_except (invoke_body prompt provider model_name enterprise)
    as_Exception
    (fun e => emit (EvStError e);; mret (PStr error_text)).

Definition known_provider (provider : string) : bool :=
  String.eqb provider "google-generativeai"
  || String.eqb provider "azure-openai".

Definition append_message (role : string) (body : pyval) : M unit := fun w =>
  (Ok tt, add_message (role, body) w).

(** The module-level code that processes one prompt typed into
    [st.chat_input]: it runs only for a non-empty prompt. *)
Definition chat_turn (prompt : string) : M unit :=
  if str_truthy prompt then
    append_message "user" (PStr prompt);;
    emit (EvStMarkdown "user" (PStr prompt));;
    provider ← read (fun w => llm_provider (session w));
    model_name ←
      (if negb (known_provider provider) then
         raise LLMProviderNotFoundException
       else if String.eqb provider "google-generativeai" then
         selected ← read (fun w => model_selected (session w));
         match selected with
         | Some m => mret m
         | None => raise (AttributeError "SessionState" "model_selected")
         end
       else if String.eqb provider "azure-openai" then
         read (fun w => azure_provider_deployment (secret_variables w))
       else mret "");
    enterprise ← read (fun w => is_enterprise_mode (session w));
    response ← invoke prompt provider model_name enterprise;
    emit (EvStMarkdown "assistant" response);;
    append_message "assistant" response
  else mret tt.

End Router.

(** ** Stub back ends and sample data *)

(** A back end that answers every request the same way. *)
Definition stub_backend (g : result string) (a : result ChatCompletion)
    : Backend :=
  {| generate_content := fun _ _ _ => g;
     chat_completions_create := fun _ _ _ => a |}.

Definition completion_of (c : option string) : ChatCompletion :=
  {| choices := [ {| message := {| content := c |} |} ] |}.

(** The JSON body [{"error": {"message": m}}]. *)
Definition error_body (m : pyval) : pyval :=
  PDict {[ "error" := PDict {[ "message" := m ]} ]}.

Definition quota_error : GoogleAPIError :=
  {| google_repr := "ResourceExhausted('quota exceeded')";
     google_response_json := JsonValue (error_body (PStr "quota exceeded")) |}.

(** A Gemini error whose body holds [null] under [error.message]. *)
Definition null_message_error : GoogleAPIError :=
  {| google_repr := "InternalServerError('')";
     google_response_json := JsonValue (error_body PNone) |}.

(** What [openai.APIConnectionError] carries: no body at all. *)
Definition connection_error : APIError :=
  {| openai_repr := "APIConnectionError('Connection error.')";
     openai_body := PNone |}.

Definition sample_secrets : SecretVariables :=
  {| aether_api_key := "aether-key";
     aether_proxy_endpoint := "https://proxy.example";
     azure_api_key := "azure-key";
     azure_endpoint := "https://azure.example";
     azure_openai_api_version := "2024-02-01";
     azure_provider_deployment := "gpt-4o";
     google_api_key := "google-key" |}.

Definition sample_session (provider : string) : session_state :=
  {| messages := [("assistant", PStr "How may I assist you today?")];
     is_enterprise_mode := false;
     llm_provider := provider;
     model_selected := Some "gemini-1.5-flash" |}.

Definition sample_world (provider : string) : world :=
  {| secret_variables := sample_secrets;
     genai_config := None;
     session := sample_session provider;
     trace := [] |}.

Definition sample_providers : list string :=
  ["google-generativeai"; "azure-openai"].

(** A back end that answers with the API key it was called with. *)
Definition echo_backend : Backend :=
  {| generate_content := fun cfg _ _ =>
       Ok (from_option genai_api_key "" cfg);
     chat_completions_create := fun client _ _ =>
       Ok (completion_of (Some (client_api_key client))) |}.

(** [sample_secrets] with other vendor keys, and with other proxy
    credentials. *)
Definition other_vendor_secrets : SecretVariables :=
  {| aether_api_key := "aether-key";
     aether_proxy_endpoint := "https://proxy.example";
     azure_api_key := "azure-key-2";
     azure_endpoint := "https://azure-2.example";
     azure_openai_api_version := "2024-02-01";
     azure_provider_deployment := "gpt-4o-mini";
     google_api_key := "google-key-2" |}.

Definition other_proxy_secrets : SecretVariables :=
  {| aether_api_key := "aether-key-2";
     aether_proxy_endpoint := "https://proxy-2.example";
     azure_api_key := "azure-key";
     azure_endpoint := "https://azure.example";
     azure_openai_api_version := "2024-02-01";
     azure_provider_deployment := "gpt-4o";
     google_api_key := "google-key" |}.

Definition world_with (sv : SecretVariables) (provider : string) : world :=
  {| secret_variables := sv;
     genai_config := None;
     session := sample_session provider;
     trace := [] |}.

(** ** The rest of the module-level code of run.py *)

(** The construction of [secret_variables] from the environment, once
    [load_dotenv] has run: [os.getenv] gives [None] for a name that is not
    set, only the API version has a default, and the [SecretVariables]
    model refuses [None] for a [str] field (the result is [None] here when
    that validation error is raised). *)
Definition load_secret_variables (env : gmap string string)
    : option SecretVariables :=
  aether_key ← env !! "AETHER_API_KEY";
  aether_endpoint ← env !! "AETHER_PROXY_ENDPOINT";
  azure_key ← env !! "AZURE_API_KEY";
  azure_ep ← env !! "AZURE_ENDPOINT";
  deployment ← env !! "AZURE_PROVIDER_MODEL";
  google_key ← env !! "GOOGLE_API_KEY";
  Some
    {| aether_api_key := aether_key;
       aether_proxy_endpoint := aether_endpoint;
       azure_api_key := azure_key;
       azure_endpoint := azure_ep;
       azure_openai_api_version :=
         default "2024-02-01" (env !! "AZURE_OPENAI_API_VERSION");
       azure_provider_deployment := deployment;
       google_api_key := google_key |}.

Definition set_secret_variables (sv : SecretVariables) (w : world) : world :=
  {| secret_variables := sv;
     genai_config := genai_config w;
     session := session w;
     trace := trace w |}.

(** The module-level assignment [secret_variables = SecretVariables(...)].
    Unlike the initialisation of [st.session_state.messages], which is
    guarded by [if "messages" not in st.session_state], it has no guard:
    it is executed again by every execution of the script, with the
    environment [env] as [load_dotenv(override=True)] leaves it then. *)
Definition initialize_secret_variables (env : gmap string string) : M unit :=
  fun w =>
    match load_secret_variables env with
    | Some sv => (Ok tt, set_secret_variables sv w)
    | None => (Raise (OtherException "ValidationError"), w)
    end.

(** [for x in l: body(x)]. *)
Fixpoint for_each {A : Type} (l : list A) (body : A -> M unit) : M unit :=
  match l with
  | [] => mret tt
  | x :: rest => body x;; for_each rest body
  end.

(** The loop that displays the chat history: one [st.markdown] of the
    response, in a [st.chat_message] of the role, per stored message. *)
Definition display_history : M unit :=
  msgs ← read (fun w => messages (session w));
  for_each msgs (fun m => emit (EvStMarkdown (fst m) (snd m))).

(** ** Notions used in the statements *)

(** A statement that leaves [secret_variables] as it found them. *)
Definition preserves_secrets {A : Type} (m : M A) : Prop :=
  forall w, secret_variables (snd (m w)) = secret_variables w.

(** The world after the client set-up and the request of
    [_azure_generate]. *)
Definition after_azure_request (prompt model_name : string) (enterprise : bool)
    (w : world) : world :=
  add_event (EvChatCompletionsCreate model_name [("user", prompt)])
    (add_event
       (EvAzureOpenAI (azure_client_settings (secret_variables w) enterprise))
       w).

(** The world after [genai.configure] and the request of
    [_google_generate]. *)
Definition after_google_request (prompt model_name : string) (enterprise : bool)
    (w : world) : world :=
  add_event (EvGenerateContent model_name prompt)
    (add_event
       (EvGenaiConfigure (google_settings (secret_variables w) enterprise))
       (set_genai_config (google_settings (secret_variables w) enterprise) w)).

(** A statement that leaves the part [f] of the world as it found it. *)
Definition keeps {A B : Type} (f : world -> B) (m : M A) : Prop :=
  forall w, f (snd (m w)) = f w.

(** Requests that go out to a back end. *)
Definition is_backend_call (ev : event) : bool :=
  match ev with
  | EvGenerateContent _ _ | EvChatCompletionsCreate _ _ => true
  | _ => false
  end.

Definition backend_calls (t : list event) : nat :=
  length (List.filter is_backend_call t).

(** The model name the handler of a chat turn passes to [invoke]. *)
Definition turn_model_name (w : world) : option string :=
  if String.eqb (llm_provider (session w)) "google-generativeai" then
    model_selected (session w)
  else if String.eqb (llm_provider (session w)) "azure-openai" then
    Some (azure_provider_deployment (secret_variables w))
  else None.

(** The environment that holds exactly the seven variables of [sv]. *)
Definition env_of (sv : SecretVariables) : gmap string string :=
  <[ "AETHER_API_KEY" := aether_api_key sv ]>
  (<[ "AETHER_PROXY_ENDPOINT" := aether_proxy_endpoint sv ]>
  (<[ "AZURE_API_KEY" := azure_api_key sv ]>
  (<[ "AZURE_ENDPOINT" := azure_endpoint sv ]>
  (<[ "AZURE_OPENAI_API_VERSION" := azure_openai_api_version sv ]>
  (<[ "AZURE_PROVIDER_MODEL" := azure_provider_deployment sv ]>
  (<[ "GOOGLE_API_KEY" := google_api_key sv ]> ∅)))))).

Definition required_variables : list string :=
  [ "AETHER_API_KEY"; "AETHER_PROXY_ENDPOINT"; "AZURE_API_KEY";
    "AZURE_ENDPOINT"; "AZURE_PROVIDER_MODEL"; "GOOGLE_API_KEY" ].

(** The events that replay a list of stored messages. *)
Definition markdown_events (msgs : list (string * pyval)) : list event :=
  map (fun m => EvStMarkdown (fst m) (snd m)) msgs.

(** A Gemini error the normaliser can read: [exc.response.json()] gives a
    [dict] whose [error] entry, when there is one, is a [dict] too. *)
Definition well_shaped_gemini_error (exc : GoogleAPIError) : bool :=
  match google_response_json exc with
  | JsonValue (PDict body) =>
      match body !! "error" with
      | None | Some (PDict _) => true
      | Some _ => false
      end
  | _ => false
  end.

(** * Properties *)

(** Unfolds the statement combinators, so that a run of the router on a
    world reduces to a case analysis on what the back end answers. *)
Ltac run_router :=
  unfold chat_turn, invoke, invoke_body, _google_generate, _azure_generate,
    model_generate_content, client_chat_completions_create, genai_configure,
    append_message, try_except, emit, read, lift, raise, as_Exception,
    mbind, M_bind, mret, M_ret;
  cbn.

(** ** The normalisers on well-shaped bodies *)

Lemma py_get_dict (d : gmap string pyval) (key : string) (dflt : pyval) :
  py_get (PDict d) key dflt = Ok (default dflt (d !! key)).
Proof. reflexivity. Qed.

Lemma py_get_not_dict (obj : pyval) (key : string) (dflt : pyval) :
  (forall d, obj <> PDict d) ->
  py_get obj key dflt = Raise (AttributeError (type_name obj) "get").
Proof. intros Hd. destruct obj; try reflexivity. now destruct (Hd d). Qed.

(** Gemini: with a JSON object as body whose [error] entry is an object,
    the stored [message] comes back, and [repr(exc)] when either key is
    missing. *)
Lemma handle_gemini_exception_message (r : string) (body err : gmap string pyval)
    (m : pyval) :
  body !! "error" = Some (PDict err) ->
  err !! "message" = Some m ->
  handle_gemini_exception
    {| google_repr := r; google_response_json := JsonValue (PDict body) |}
  = Ok m.
Proof.
  intros Hb He. unfold handle_gemini_exception; cbn.
  rewrite Hb; cbn. now rewrite He.
Qed.

Lemma handle_gemini_exception_no_error (r : string) (body : gmap string pyval) :
  body !! "error" = None ->
  handle_gemini_exception
    {| google_repr := r; google_response_json := JsonValue (PDict body) |}
  = Ok (PStr r).
Proof.
  intros Hb. unfold handle_gemini_exception; cbn.
  rewrite Hb; cbn. now rewrite lookup_empty.
Qed.

Lemma handle_gemini_exception_no_message (r : string)
    (body err : gmap string pyval) :
  body !! "error" = Some (PDict err) ->
  err !! "message" = None ->
  handle_gemini_exception
    {| google_repr := r; google_response_json := JsonValue (PDict body) |}
  = Ok (PStr r).
Proof.
  intros Hb He. unfold handle_gemini_exception; cbn.
  rewrite Hb; cbn. now rewrite He.
Qed.

Lemma handle_gemini_exception_quota :
  handle_gemini_exception quota_error = Ok (PStr "quota exceeded").
Proof. reflexivity. Qed.

(** Azure: with a [dict] as body, the stored [message], else [repr(exc)]. *)
Lemma handle_azure_exception_dict (r : string) (body : gmap string pyval) :
  handle_azure_exception {| openai_repr := r; openai_body := PDict body |}
  = Ok (default (PStr r) (body !! "message")).
Proof. reflexivity. Qed.

(** ** Statements that leave [secret_variables] alone *)

Create HintDb secrets.

Lemma preserves_ret {A : Type} (a : A) : preserves_secrets (mret a).
Proof. intros w. reflexivity. Qed.

Lemma preserves_raise {A : Type} (e : exn) : preserves_secrets (@raise A e).
Proof. intros w. reflexivity. Qed.

Lemma preserves_lift {A : Type} (r : result A) : preserves_secrets (lift r).
Proof. intros w. reflexivity. Qed.

Lemma preserves_emit (ev : event) : preserves_secrets (emit ev).
Proof. intros w. reflexivity. Qed.

Lemma preserves_read {A : Type} (f : world -> A) : preserves_secrets (read f).
Proof. intros w. reflexivity. Qed.

Lemma preserves_genai_configure (c : genai_settings) :
  preserves_secrets (genai_configure c).
Proof. intros w. reflexivity. Qed.

Lemma preserves_append_message (role : string) (body : pyval) :
  preserves_secrets (append_message role body).
Proof. intros w. reflexivity. Qed.

Lemma preserves_bind {A B : Type} (m : M A) (f : A -> M B) :
  preserves_secrets m -> (forall a, preserves_secrets (f a)) ->
  preserves_secrets (m ≫= f).
Proof.
  intros Hm Hf w. unfold mbind, M_bind.
  specialize (Hm w). destruct (m w) as [[a | e] w']; cbn in *.
  - now rewrite Hf.
  - exact Hm.
Qed.

Lemma preserves_try_except {A X : Type} (body : M A)
    (select : exn -> option X) (handler : X -> M A) :
  preserves_secrets body -> (forall x, preserves_secrets (handler x)) ->
  preserves_secrets (try_except body select handler).
Proof.
  intros Hb Hh w. unfold try_except.
  specialize (Hb w). destruct (body w) as [[a | e] w']; cbn in *.
  - exact Hb.
  - destruct (select e) as [x |]; cbn.
    + now rewrite Hh.
    + exact Hb.
Qed.

#[export] Hint Resolve preserves_ret preserves_raise preserves_lift
  preserves_emit preserves_read preserves_genai_configure
  preserves_append_message : secrets.

(** Walks down a statement, one combinator at a time. *)
Ltac preserves :=
  repeat first
    [ solve [auto with secrets]
    | apply preserves_bind; [| intros ?]
    | apply preserves_try_except; [| intros ?]
    | match goal with
      | |- preserves_secrets (if ?c then _ else _) => destruct c
      | |- preserves_secrets (match ?x with _ => _ end) => destruct x
      | |- preserves_secrets (let _ := _ in _) => cbv zeta
      end ].

Section RouterFacts.

Variable backend : Backend.

Lemma preserves_model_generate_content (model_name prompt : string) :
  preserves_secrets (model_generate_content backend model_name prompt).
Proof. unfold model_generate_content. preserves. Qed.

Lemma preserves_client_chat_completions_create (client : azure_settings)
    (model_name : string) (msgs : list (string * string)) :
  preserves_secrets
    (client_chat_completions_create backend client model_name msgs).
Proof. unfold client_chat_completions_create. preserves. Qed.

#[local] Hint Resolve preserves_model_generate_content
  preserves_client_chat_completions_create : secrets.

Lemma preserves_google_generate (prompt model_name : string) (enterprise : bool) :
  preserves_secrets (_google_generate backend prompt model_name enterprise).
Proof. unfold _google_generate. preserves. Qed.

Lemma preserves_azure_generate (prompt model_name : string) (enterprise : bool) :
  preserves_secrets (_azure_generate backend prompt model_name enterprise).
Proof. unfold _azure_generate. preserves. Qed.

#[local] Hint Resolve preserves_google_generate preserves_azure_generate : secrets.

Lemma preserves_invoke (prompt provider model_name : string) (enterprise : bool) :
  preserves_secrets (invoke backend prompt provider model_name enterprise).
Proof. unfold invoke, invoke_body. preserves. Qed.

#[local] Hint Resolve preserves_invoke : secrets.

Lemma preserves_chat_turn (prompt : string) :
  preserves_secrets (chat_turn backend prompt).
Proof. unfold chat_turn. preserves. Qed.

End RouterFacts.

(** ** What [invoke] gives back *)

(** C3, as the specification words it, fails: the advisory text of the
    code is another one. *)
Lemma empty_prompt_advisory_text_differs :
  fst (invoke (stub_backend (Ok "hello") (Ok (completion_of None)))
         "" "google-generativeai" "gemini-pro" false
         (sample_world "google-generativeai"))
  <> Ok (PStr "prompt is empty, please retry").
Proof. cbn. discriminate. Qed.

(** C3 (amended): for an empty prompt, whatever the provider selector,
    the model name and the mode, [invoke] returns the fixed advisory
    string "Your prompt is empty; please re-type your prompt and try
    again!" as an ordinary result and leaves the world as it was: no
    credential is selected, no back end is called, nothing is logged. *)
Theorem invoke_empty_prompt (backend : Backend) (provider model_name : string)
    (enterprise : bool) (w : world) :
  invoke backend "" provider model_name enterprise w
  = (Ok (PStr "Your prompt is empty; please re-type your prompt and try again!"),
     w).
Proof. reflexivity. Qed.

(** C2, as the specification words it, fails: with an unknown selector
    [invoke] does not fail with the provider-not-found exception, it
    returns the generic error string. *)
Lemma invoke_unknown_provider_no_exception :
  fst (invoke (stub_backend (Ok "hello") (Ok (completion_of None)))
         "hi" "anthropic" "gemini-pro" false (sample_world "anthropic"))
  = Ok (PStr error_text)
  /\ fst (invoke (stub_backend (Ok "hello") (Ok (completion_of None)))
            "hi" "anthropic" "gemini-pro" false (sample_world "anthropic"))
     <> Raise LLMProviderNotFoundException.
Proof. split; [reflexivity | cbn; discriminate]. Qed.

(** C2 (amended): when the selected provider is neither
    "google-generativeai" nor "azure-openai", the handler of the chat turn
    raises [LLMProviderNotFoundException], whose message lists
    [LLM_PROVIDERS], before it calls [invoke]: by then it has only recorded
    and shown the user's prompt, so no credential has been selected and no
    back end called.  [invoke] itself, given such a selector and a
    non-empty prompt, selects no credential and calls no back end either:
    its unbound [response] is caught and it returns the generic error
    string. *)
Theorem unknown_provider_rejected_before_invoke (LLM_PROVIDERS : list string)
    (backend : Backend) (prompt model_name : string) (enterprise : bool)
    (w : world) :
  str_truthy prompt = true ->
  known_provider (llm_provider (session w)) = false ->
  chat_turn backend prompt w
  = (Raise LLMProviderNotFoundException,
     add_event (EvStMarkdown "user" (PStr prompt))
       (add_message ("user", PStr prompt) w))
  /\ exception_message LLM_PROVIDERS LLMProviderNotFoundException
     = Some ("The LLM provider must be one of the following: "
             ++ repr_list LLM_PROVIDERS)
  /\ invoke backend prompt (llm_provider (session w)) model_name enterprise w
     = (Ok (PStr error_text),
        add_event (EvStError (UnboundLocalError "response")) w).
Proof.
  intros Hp Hk. unfold known_provider in Hk.
  apply orb_false_elim in Hk as [Hg Ha].
  split; [| split].
  - run_router. rewrite Hp. cbn. unfold known_provider.
    rewrite Hg, Ha. reflexivity.
  - reflexivity.
  - run_router. rewrite Hp, Hg, Ha. reflexivity.
Qed.

Lemma unknown_provider_rejected_before_invoke_witness :
  chat_turn (stub_backend (Ok "hello") (Ok (completion_of None)))
    "hi" (sample_world "anthropic")
  = (Raise LLMProviderNotFoundException,
     add_event (EvStMarkdown "user" (PStr "hi"))
       (add_message ("user", PStr "hi") (sample_world "anthropic")))
  /\ exception_message sample_providers LLMProviderNotFoundException
     = Some ("The LLM provider must be one of the following: "
             ++ repr_list sample_providers)
  /\ invoke (stub_backend (Ok "hello") (Ok (completion_of None)))
       "hi" (llm_provider (session (sample_world "anthropic")))
       "gemini-pro" false (sample_world "anthropic")
     = (Ok (PStr error_text),
        add_event (EvStError (UnboundLocalError "response"))
          (sample_world "anthropic")).
Proof.
  apply (unknown_provider_rejected_before_invoke sample_providers
           (stub_backend (Ok "hello") (Ok (completion_of None)))
           "hi" "gemini-pro" false (sample_world "anthropic"));
    reflexivity.
Defined.

(** C7: for a non-empty prompt and a known provider whose back end
    answers with text, [invoke] returns exactly that text: for Gemini the
    [text] of the response, for Azure the content of the message of the
    first choice. *)
Theorem invoke_returns_backend_text (backend : Backend)
    (prompt provider model_name : string) (enterprise : bool) (w : world)
    (text : string) :
  str_truthy prompt = true ->
  (provider = "google-generativeai"
   /\ generate_content backend
        (Some (google_settings (secret_variables w) enterprise))
        model_name prompt
      = Ok text)
  \/ (provider = "azure-openai"
      /\ exists c cs,
           chat_completions_create backend
             (azure_client_settings (secret_variables w) enterprise)
             model_name [("user", prompt)]
           = Ok {| choices := c :: cs |}
           /\ content (message c) = Some text) ->
  fst (invoke backend prompt provider model_name enterprise w)
  = Ok (PStr text).
Proof.
  intros Hp [[-> Hg] | [-> (c & cs & Ha & Hc)]]; run_router; rewrite Hp; cbn.
  - rewrite Hg. reflexivity.
  - rewrite Ha. cbn. rewrite Hc. reflexivity.
Qed.

Lemma invoke_returns_backend_text_witness :
  fst (invoke (stub_backend (Ok "hello") (Ok (completion_of None)))
         "hi" "google-generativeai" "gemini-pro" false
         (sample_world "google-generativeai"))
  = Ok (PStr "hello").
Proof.
  apply (invoke_returns_backend_text
           (stub_backend (Ok "hello") (Ok (completion_of None)))
           "hi" "google-generativeai" "gemini-pro" false
           (sample_world "google-generativeai") "hello").
  - reflexivity.
  - left. split; reflexivity.
Defined.

(** C5, as the specification words it, fails: a chat completion that
    holds no choice at all carries no text either, and what [invoke]
    surfaces for it is [IndexError], not [NoResponseException]. *)
Lemma invoke_no_choice_is_not_no_response :
  invoke_body (stub_backend (Ok "hello") (Ok {| choices := [] |}))
    "hi" "azure-openai" "gpt-4o" false (sample_world "azure-openai")
  = (Raise IndexError,
     after_azure_request "hi" "gpt-4o" false (sample_world "azure-openai"))
  /\ fst (invoke_body (stub_backend (Ok "hello") (Ok {| choices := [] |}))
            "hi" "azure-openai" "gpt-4o" false (sample_world "azure-openai"))
     <> Raise NoResponseException
  /\ invoke (stub_backend (Ok "hello") (Ok {| choices := [] |}))
       "hi" "azure-openai" "gpt-4o" false (sample_world "azure-openai")
     = (Ok (PStr error_text),
        add_event (EvStError IndexError)
          (after_azure_request "hi" "gpt-4o" false
             (sample_world "azure-openai"))).
Proof. split; [reflexivity | split; [cbn; discriminate | reflexivity]]. Qed.

(** C5 (amended): for a non-empty prompt, a response without text always
    ends in the generic string "An error occurred while processing the
    request.", but the failure kind that [invoke] surfaces, and that the
    [st.error] report records, depends on the shape of the response.
    When the Azure back end answers and the message of its first choice
    holds no content, the kind is [NoResponseException].  When the Azure
    completion holds no choice at all, the kind is [IndexError].  When
    reading the text of the Gemini response raises an exception that is
    not a [GoogleAPIError], the kind is that exception. *)
Theorem invoke_no_text_failure_kinds (backend : Backend)
    (prompt model_name : string) (enterprise : bool) (w : world) :
  str_truthy prompt = true ->
  (forall c cs,
     chat_completions_create backend
       (azure_client_settings (secret_variables w) enterprise)
       model_name [("user", prompt)]
     = Ok {| choices := c :: cs |} ->
     content (message c) = None ->
     invoke_body backend prompt "azure-openai" model_name enterprise w
     = (Raise NoResponseException,
        after_azure_request prompt model_name enterprise w)
     /\ invoke backend prompt "azure-openai" model_name enterprise w
        = (Ok (PStr "An error occurred while processing the request."),
           add_event (EvStError NoResponseException)
             (after_azure_request prompt model_name enterprise w)))
  /\ (chat_completions_create backend
        (azure_client_settings (secret_variables w) enterprise)
        model_name [("user", prompt)]
      = Ok {| choices := [] |} ->
      invoke_body backend prompt "azure-openai" model_name enterprise w
      = (Raise IndexError, after_azure_request prompt model_name enterprise w)
      /\ invoke backend prompt "azure-openai" model_name enterprise w
         = (Ok (PStr "An error occurred while processing the request."),
            add_event (EvStError IndexError)
              (after_azure_request prompt model_name enterprise w)))
  /\ (forall e,
        as_GoogleAPIError e = None ->
        generate_content backend
          (Some (google_settings (secret_variables w) enterprise))
          model_name prompt
        = Raise e ->
        invoke_body backend prompt "google-generativeai" model_name
          enterprise w
        = (Raise e, after_google_request prompt model_name enterprise w)
        /\ invoke backend prompt "google-generativeai" model_name enterprise w
           = (Ok (PStr "An error occurred while processing the request."),
              add_event (EvStError e)
                (after_google_request prompt model_name enterprise w))).
Proof.
  intros Hp. split; [| split].
  - intros c cs Ha Hc. split; run_router; rewrite Hp; cbn; rewrite Ha; cbn;
      rewrite Hc; reflexivity.
  - intros Ha. split; run_router; rewrite Hp; cbn; rewrite Ha; reflexivity.
  - intros e He Hg. split; run_router; rewrite Hp; cbn; rewrite Hg; cbn;
      rewrite He; reflexivity.
Qed.

Lemma invoke_no_text_failure_kinds_witness :
  invoke_body (stub_backend (Ok "hello") (Ok (completion_of None)))
    "hi" "azure-openai" "gpt-4o" true (sample_world "azure-openai")
  = (Raise NoResponseException,
     after_azure_request "hi" "gpt-4o" true (sample_world "azure-openai"))
  /\ invoke (stub_backend (Ok "hello") (Ok (completion_of None)))
       "hi" "azure-openai" "gpt-4o" true (sample_world "azure-openai")
     = (Ok (PStr "An error occurred while processing the request."),
        add_event (EvStError NoResponseException)
          (after_azure_request "hi" "gpt-4o" true
             (sample_world "azure-openai"))).
Proof.
  apply (proj1 (invoke_no_text_failure_kinds
                  (stub_backend (Ok "hello") (Ok (completion_of None)))
                  "hi" "gpt-4o" true (sample_world "azure-openai") eq_refl)
           {| message := {| content := None |} |} []);
    reflexivity.
Defined.

(** ** Back-end errors *)

(** An API error of the Gemini client is caught inside the helper, which
    returns what the normaliser makes of it. *)
Lemma google_generate_api_error (backend : Backend)
    (prompt model_name : string) (enterprise : bool) (w : world)
    (g : GoogleAPIError) :
  generate_content backend
    (Some (google_settings (secret_variables w) enterprise)) model_name prompt
  = Raise (EGoogleAPIError g) ->
  _google_generate backend prompt model_name enterprise w
  = (handle_gemini_exception g,
     add_event (EvLogException (EGoogleAPIError g))
       (after_google_request prompt model_name enterprise w)).
Proof. intros Hg. run_router. rewrite Hg. reflexivity. Qed.

Lemma azure_generate_api_error (backend : Backend)
    (prompt model_name : string) (enterprise : bool) (w : world)
    (a : APIError) :
  chat_completions_create backend
    (azure_client_settings (secret_variables w) enterprise)
    model_name [("user", prompt)]
  = Raise (EOpenAIAPIError a) ->
  _azure_generate backend prompt model_name enterprise w
  = (handle_azure_exception a,
     add_event (EvLogException (EOpenAIAPIError a))
       (after_azure_request prompt model_name enterprise w)).
Proof. intros Ha. run_router. rewrite Ha. reflexivity. Qed.

(** What [invoke] makes of the outcome of its [try] block. *)
Lemma invoke_of_body (backend : Backend) (prompt provider model_name : string)
    (enterprise : bool) (w : world) :
  invoke backend prompt provider model_name enterprise w
  = match invoke_body backend prompt provider model_name enterprise w with
    | (Ok v, w1) => (Ok v, w1)
    | (Raise e, w1) => (Ok (PStr error_text), add_event (EvStError e) w1)
    end.
Proof.
  unfold invoke, try_except, as_Exception.
  destruct (invoke_body _ _ _ _ _ w) as [[v | e] w1]; reflexivity.
Qed.

Lemma invoke_body_google (backend : Backend) (prompt model_name : string)
    (enterprise : bool) (w : world) :
  str_truthy prompt = true ->
  invoke_body backend prompt "google-generativeai" model_name enterprise w
  = match _google_generate backend prompt model_name enterprise w with
    | (Ok r, w1) =>
        if is_none r then (Raise NoResponseException, w1) else (Ok r, w1)
    | (Raise e, w1) => (Raise e, w1)
    end.
Proof.
  intros Hp. unfold invoke_body. rewrite Hp. cbn.
  unfold mbind, M_bind, mret, M_ret, raise.
  destruct (_google_generate _ _ _ _ w) as [[r | e] w1]; cbn; [| reflexivity].
  destruct (is_none r); reflexivity.
Qed.

Lemma invoke_body_azure (backend : Backend) (prompt model_name : string)
    (enterprise : bool) (w : world) :
  str_truthy prompt = true ->
  invoke_body backend prompt "azure-openai" model_name enterprise w
  = match _azure_generate backend prompt model_name enterprise w with
    | (Ok r, w1) =>
        if is_none r then (Raise NoResponseException, w1) else (Ok r, w1)
    | (Raise e, w1) => (Raise e, w1)
    end.
Proof.
  intros Hp. unfold invoke_body. rewrite Hp. cbn.
  unfold mbind, M_bind, mret, M_ret, raise.
  destruct (_azure_generate _ _ _ _ w) as [[r | e] w1]; cbn; [| reflexivity].
  destruct (is_none r); reflexivity.
Qed.

(** C1, as the specification words it, fails: a back-end error does not
    come back as the generic string, the helper returns the provider's own
    message. *)
Lemma invoke_backend_error_not_generic :
  fst (invoke
         (stub_backend (Raise (EGoogleAPIError quota_error))
            (Ok (completion_of None)))
         "hi" "google-generativeai" "gemini-pro" true
         (sample_world "google-generativeai"))
  <> Ok (PStr error_text).
Proof. cbn. discriminate. Qed.

(** C1 (amended): [invoke] never propagates an exception, it always
    returns a value.  Every exception that leaves its [try] block - the
    unbound [response] of an unknown provider, [NoResponseException], an
    exception the helper does not catch, a failure of the normaliser - is
    caught at the call site, reported with [st.error] and converted into
    the single generic string.  API errors of a back end never reach that
    handler: the helper of the provider catches them, and when the
    normaliser gives a value other than [None], [invoke] returns that
    value (the provider's message) and not the generic string. *)
Theorem invoke_catches_every_exception (backend : Backend)
    (prompt provider model_name : string) (enterprise : bool) (w : world) :
  (exists v, fst (invoke backend prompt provider model_name enterprise w) = Ok v)
  /\ (forall e w1,
        invoke_body backend prompt provider model_name enterprise w
        = (Raise e, w1) ->
        invoke backend prompt provider model_name enterprise w
        = (Ok (PStr error_text), add_event (EvStError e) w1))
  /\ (forall g m,
        str_truthy prompt = true ->
        provider = "google-generativeai" ->
        generate_content backend
          (Some (google_settings (secret_variables w) enterprise))
          model_name prompt
        = Raise (EGoogleAPIError g) ->
        handle_gemini_exception g = Ok m ->
        is_none m = false ->
        fst (invoke backend prompt provider model_name enterprise w) = Ok m)
  /\ (forall a m,
        str_truthy prompt = true ->
        provider = "azure-openai" ->
        chat_completions_create backend
          (azure_client_settings (secret_variables w) enterprise)
          model_name [("user", prompt)]
        = Raise (EOpenAIAPIError a) ->
        handle_azure_exception a = Ok m ->
        is_none m = false ->
        fst (invoke backend prompt provider model_name enterprise w) = Ok m).
Proof.
  repeat split.
  - rewrite invoke_of_body.
    destruct (invoke_body _ _ _ _ _ w) as [[v | e] w1]; cbn; eauto.
  - intros e w1 Hb. rewrite invoke_of_body, Hb. reflexivity.
  - intros g m Hp -> Hg Hm Hn.
    rewrite invoke_of_body, invoke_body_google by exact Hp.
    rewrite (google_generate_api_error _ _ _ _ _ _ Hg), Hm, Hn. reflexivity.
  - intros a m Hp -> Ha Hm Hn.
    rewrite invoke_of_body, invoke_body_azure by exact Hp.
    rewrite (azure_generate_api_error _ _ _ _ _ _ Ha), Hm, Hn. reflexivity.
Qed.

Lemma invoke_catches_every_exception_witness :
  invoke (stub_backend (Ok "hello") (Ok (completion_of None)))
    "hi" "anthropic" "gemini-pro" false (sample_world "anthropic")
  = (Ok (PStr error_text),
     add_event (EvStError (UnboundLocalError "response"))
       (sample_world "anthropic")).
Proof.
  apply (proj1 (proj2 (invoke_catches_every_exception
                         (stub_backend (Ok "hello") (Ok (completion_of None)))
                         "hi" "anthropic" "gemini-pro" false
                         (sample_world "anthropic")))).
  reflexivity.
Defined.

(** C4: on an [openai.APIError] without a body - what a connection error
    carries - [handle_azure_exception] does not fall back to [repr(exc)]:
    the lookup of [get] on [None] raises [AttributeError], and [invoke]
    answers with the generic string. *)
Theorem handle_azure_exception_without_body :
  handle_azure_exception connection_error
  = Raise (AttributeError "NoneType" "get")
  /\ invoke
       (stub_backend (Ok "hello") (Raise (EOpenAIAPIError connection_error)))
       "hi" "azure-openai" "gpt-4o" false (sample_world "azure-openai")
     = (Ok (PStr error_text),
        add_event (EvStError (AttributeError "NoneType" "get"))
          (add_event (EvLogException (EOpenAIAPIError connection_error))
             (after_azure_request "hi" "gpt-4o" false
                (sample_world "azure-openai")))).
Proof. split; reflexivity. Qed.

(** The same slip on the Gemini side: an [error] entry that is not an
    object has no [get]. *)
Lemma handle_gemini_exception_error_not_object :
  handle_gemini_exception
    {| google_repr := "BadRequest('bad request')";
       google_response_json :=
         JsonValue (PDict {[ "error" := PStr "bad request" ]}) |}
  = Raise (AttributeError "str" "get").
Proof. reflexivity. Qed.

(** C10: with a Gemini API error whose JSON body holds [null] under
    [error.message], the caught-error path of [_google_generate] returns
    [None], and the [None] check of [invoke] raises [NoResponseException]
    in the Google branch. *)
Theorem google_generate_returns_none :
  fst (_google_generate
         (stub_backend (Raise (EGoogleAPIError null_message_error))
            (Ok (completion_of (Some "unused"))))
         "hi" "gemini-pro" true (sample_world "google-generativeai"))
  = Ok PNone
  /\ fst (invoke_body
            (stub_backend (Raise (EGoogleAPIError null_message_error))
               (Ok (completion_of (Some "unused"))))
            "hi" "google-generativeai" "gemini-pro" true
            (sample_world "google-generativeai"))
     = Raise NoResponseException.
Proof. split; reflexivity. Qed.

(** The success path of [_google_generate] returns the text, a string. *)
Lemma google_generate_success (backend : Backend) (prompt model_name : string)
    (enterprise : bool) (w : world) (text : string) :
  generate_content backend
    (Some (google_settings (secret_variables w) enterprise)) model_name prompt
  = Ok text ->
  _google_generate backend prompt model_name enterprise w
  = (Ok (PStr text),
     add_event (EvLogInfo ("LLM response: " ++ text))
       (after_google_request prompt model_name enterprise w)).
Proof. intros Hg. run_router. rewrite Hg. reflexivity. Qed.

(** ** Credential selection *)

(** The helper configures the [genai] package with [google_settings]
    before its request goes out. *)
Lemma google_generate_trace (backend : Backend) (prompt model_name : string)
    (enterprise : bool) (w : world) :
  exists evs,
    trace (snd (_google_generate backend prompt model_name enterprise w))
    = (trace w
      ++ EvGenaiConfigure (google_settings (secret_variables w) enterprise)
      :: EvGenerateContent model_name prompt :: evs)%list.
Proof.
  run_router.
  destruct (generate_content backend _ model_name prompt) as [text | e]; cbn.
  - eexists. rewrite <- !app_assoc. reflexivity.
  - destruct e; cbn;
      try (exists []; rewrite <- !app_assoc; reflexivity).
    eexists. rewrite <- !app_assoc. reflexivity.
Qed.

Lemma azure_generate_trace (backend : Backend) (prompt model_name : string)
    (enterprise : bool) (w : world) :
  exists evs,
    trace (snd (_azure_generate backend prompt model_name enterprise w))
    = (trace w
      ++ EvAzureOpenAI (azure_client_settings (secret_variables w) enterprise)
      :: EvChatCompletionsCreate model_name [("user", prompt)] :: evs)%list.
Proof.
  run_router.
  destruct (chat_completions_create backend _ model_name _) as [r | e]; cbn.
  - destruct (choices r); cbn; exists []; rewrite <- !app_assoc; reflexivity.
  - destruct e; cbn;
      try (exists []; rewrite <- !app_assoc; reflexivity).
    eexists. rewrite <- !app_assoc. reflexivity.
Qed.

(** C6, as the specification words it, fails for Gemini in direct mode:
    the helper passes the Google API key only and selects no endpoint, the
    secrets hold no Google endpoint to select. *)
Lemma google_direct_mode_selects_no_endpoint :
  trace (snd (_google_generate
                (stub_backend (Ok "hello") (Ok (completion_of None)))
                "hi" "gemini-pro" false (sample_world "google-generativeai")))
  = [ EvGenaiConfigure
        {| genai_api_key := "google-key";
           genai_transport := None;
           genai_api_endpoint := None |};
      EvGenerateContent "gemini-pro" "hi";
      EvLogInfo "LLM response: hello" ]
  /\ ~ (exists url,
          genai_api_endpoint (google_settings sample_secrets false)
          = Some url).
Proof. split; [reflexivity | intros [url H]; discriminate H]. Qed.

(** C6 (amended): the credentials a helper uses depend on the provider,
    the mode and the secrets only.  In enterprise mode both helpers take
    the Aether API key and the Aether proxy endpoint (Gemini over the REST
    transport, Azure with the configured API version).  In direct mode the
    Azure helper takes the Azure API key and the Azure endpoint, and the
    Gemini helper takes the Google API key and no endpoint at all, which
    leaves the SDK's default in force.  Each helper sets its client up
    with exactly these settings before its request goes out. *)
Theorem credential_selection (backend : Backend) (prompt model_name : string)
    (w : world) :
  let sv := secret_variables w in
  (exists evs,
     trace (snd (_google_generate backend prompt model_name true w))
     = (trace w
       ++ EvGenaiConfigure
            {| genai_api_key := aether_api_key sv;
               genai_transport := Some "rest";
               genai_api_endpoint := Some (aether_proxy_endpoint sv) |}
       :: EvGenerateContent model_name prompt :: evs)%list)
  /\ (exists evs,
        trace (snd (_google_generate backend prompt model_name false w))
        = (trace w
          ++ EvGenaiConfigure
               {| genai_api_key := google_api_key sv;
                  genai_transport := None;
                  genai_api_endpoint := None |}
          :: EvGenerateContent model_name prompt :: evs)%list)
  /\ (exists evs,
        trace (snd (_azure_generate backend prompt model_name true w))
        = (trace w
          ++ EvAzureOpenAI
               {| client_api_key := aether_api_key sv;
                  client_azure_endpoint := aether_proxy_endpoint sv;
                  client_api_version := azure_openai_api_version sv |}
          :: EvChatCompletionsCreate model_name [("user", prompt)] :: evs)%list)
  /\ (exists evs,
        trace (snd (_azure_generate backend prompt model_name false w))
        = (trace w
          ++ EvAzureOpenAI
               {| client_api_key := azure_api_key sv;
                  client_azure_endpoint := azure_endpoint sv;
                  client_api_version := azure_openai_api_version sv |}
          :: EvChatCompletionsCreate model_name [("user", prompt)] :: evs)%list).
Proof.
  cbv zeta. repeat split.
  - apply (google_generate_trace backend prompt model_name true w).
  - apply (google_generate_trace backend prompt model_name false w).
  - apply (azure_generate_trace backend prompt model_name true w).
  - apply (azure_generate_trace backend prompt model_name false w).
Qed.

(** ** No hidden state *)

(** The result of [invoke] depends on the world through
    [secret_variables] only: the configuration left in the [genai] package
    by an earlier call, the session and the trace play no part. *)
Lemma invoke_result_independent (backend : Backend)
    (prompt provider model_name : string) (enterprise : bool)
    (w1 w2 : world) :
  secret_variables w1 = secret_variables w2 ->
  fst (invoke backend prompt provider model_name enterprise w1)
  = fst (invoke backend prompt provider model_name enterprise w2).
Proof.
  intros Hs. run_router.
  destruct (str_truthy prompt); cbn; [| reflexivity].
  destruct (String.eqb provider "google-generativeai"); cbn.
  - rewrite Hs.
    destruct (generate_content backend _ model_name prompt) as [text | e];
      cbn; [reflexivity |].
    destruct e; cbn; try reflexivity.
    destruct (handle_gemini_exception e) as [r | e']; cbn; [| reflexivity].
    destruct (is_none r); reflexivity.
  - destruct (String.eqb provider "azure-openai"); cbn; [| reflexivity].
    rewrite Hs.
    destruct (chat_completions_create backend _ model_name _) as [r | e]; cbn.
    + destruct (choices r) as [| c cs]; cbn; [reflexivity |].
      destruct (is_none (option_to_pyval (content (message c))));
        reflexivity.
    + destruct e; cbn; try reflexivity.
      destruct (handle_azure_exception e) as [r | e']; cbn; [| reflexivity].
      destruct (is_none r); reflexivity.
Qed.

(** C8: with the same request and the same back end, the result of
    [invoke] is the same in any two worlds that hold the same secrets; in
    particular a second call, made in the world the first call left
    behind, returns what the first call returned. *)
Theorem invoke_twice_same_result (backend : Backend)
    (prompt provider model_name : string) (enterprise : bool) :
  (forall w1 w2,
     secret_variables w1 = secret_variables w2 ->
     fst (invoke backend prompt provider model_name enterprise w1)
     = fst (invoke backend prompt provider model_name enterprise w2))
  /\ (forall w,
        fst (invoke backend prompt provider model_name enterprise
               (snd (invoke backend prompt provider model_name enterprise w)))
        = fst (invoke backend prompt provider model_name enterprise w)).
Proof.
  split.
  - apply invoke_result_independent.
  - intros w. apply invoke_result_independent. apply preserves_invoke.
Qed.

Lemma invoke_twice_same_result_witness :
  fst (invoke (stub_backend (Raise (EGoogleAPIError quota_error))
                 (Ok (completion_of None)))
         "hi" "google-generativeai" "gemini-pro" true
         (sample_world "google-generativeai"))
  = fst (invoke (stub_backend (Raise (EGoogleAPIError quota_error))
                   (Ok (completion_of None)))
           "hi" "google-generativeai" "gemini-pro" true
           (sample_world "azure-openai")).
Proof.
  apply (proj1 (invoke_twice_same_result
                  (stub_backend (Raise (EGoogleAPIError quota_error))
                     (Ok (completion_of None)))
                  "hi" "google-generativeai" "gemini-pro" true)).
  reflexivity.
Defined.



(** * Further properties of the code *)

(** ** utils.py: when the normalisers fail *)

(** X1: [handle_azure_exception] raises exactly when the body of the
    error is not a [dict]; it then raises the [AttributeError] of the
    missing [get]. *)
Theorem handle_azure_exception_raises_iff (exc : APIError) :
  ((exists e, handle_azure_exception exc = Raise e)
   <-> forall d, openai_body exc <> PDict d)
  /\ forall e, handle_azure_exception exc = Raise e ->
       e = AttributeError (type_name (openai_body exc)) "get".
Proof.
  destruct exc as [r body]. unfold handle_azure_exception; cbn.
  split; [split |].
  - intros [e He] d ->. discriminate He.
  - intros Hd. destruct body; cbn; eauto. now destruct (Hd d).
  - intros e He. destruct body; cbn in *; congruence.
Qed.

(** X2: [handle_gemini_exception] returns a value exactly on the errors
    whose JSON body is an object with no [error] entry or with an [error]
    entry that is an object; on every other error it raises. *)
Theorem handle_gemini_exception_returns_iff (exc : GoogleAPIError) :
  (exists v, handle_gemini_exception exc = Ok v)
  <-> well_shaped_gemini_error exc = true.
Proof.
  destruct exc as [r [body | msg]];
    unfold handle_gemini_exception, well_shaped_gemini_error; cbn.
  - destruct body as [| | | | | d]; cbn;
      try (split; [intros [v Hv]; discriminate Hv | discriminate]).
    destruct (d !! "error") as [err |]; cbn.
    + destruct err; cbn;
        try (split; [intros [v Hv]; discriminate Hv | discriminate]).
      split; eauto.
    + split; eauto.
  - split; [intros [v Hv]; discriminate Hv | discriminate].
Qed.

(** X3: the normalisers read one key per level and nothing else.
    Adding or changing an entry other than [message] in the Azure body, an
    entry other than [error] in the Gemini body, or an entry other than
    [message] in the Gemini [error] object changes nothing to what they
    return. *)
Theorem normalisers_ignore_other_keys (r key : string) (v : pyval)
    (body err : gmap string pyval) :
  (key <> "message" ->
   handle_azure_exception
     {| openai_repr := r; openai_body := PDict (<[key := v]> body) |}
   = handle_azure_exception {| openai_repr := r; openai_body := PDict body |})
  /\ (key <> "error" ->
      handle_gemini_exception
        {| google_repr := r;
           google_response_json := JsonValue (PDict (<[key := v]> body)) |}
      = handle_gemini_exception
          {| google_repr := r;
             google_response_json := JsonValue (PDict body) |})
  /\ (key <> "message" ->
      handle_gemini_exception
        {| google_repr := r;
           google_response_json :=
             JsonValue
               (PDict (<["error" := PDict (<[key := v]> err)]> body)) |}
      = handle_gemini_exception
          {| google_repr := r;
             google_response_json :=
               JsonValue (PDict (<["error" := PDict err]> body)) |}).
Proof.
  unfold handle_azure_exception, handle_gemini_exception; cbn.
  split; [| split].
  - intros Hm. now rewrite lookup_insert_ne.
  - intros He. now rewrite lookup_insert_ne.
  - intros Hm. rewrite !lookup_insert_eq. cbn. now rewrite lookup_insert_ne.
Qed.

Lemma normalisers_ignore_other_keys_witness :
  handle_azure_exception
    {| openai_repr := "APIError()";
       openai_body :=
         PDict (<["error" := PStr "rate"]> {[ "message" := PStr "slow down" ]}) |}
  = handle_azure_exception
      {| openai_repr := "APIError()";
         openai_body := PDict {[ "message" := PStr "slow down" ]} |}.
Proof.
  apply (proj1 (normalisers_ignore_other_keys "APIError()" "error"
                  (PStr "rate") {[ "message" := PStr "slow down" ]} ∅)).
  discriminate.
Defined.

(** ** run.py: what the helpers catch and what they let through *)

(** X4: [_google_generate] catches [GoogleAPIError] only.  Any other
    exception of the Gemini client leaves the helper as it is, without a
    log entry, and [invoke] turns it into the generic string after
    reporting it with [st.error]. *)
Theorem google_generate_lets_other_exceptions_through (backend : Backend)
    (prompt model_name : string) (enterprise : bool) (w : world) (e : exn) :
  str_truthy prompt = true ->
  as_GoogleAPIError e = None ->
  generate_content backend
    (Some (google_settings (secret_variables w) enterprise)) model_name prompt
  = Raise e ->
  _google_generate backend prompt model_name enterprise w
  = (Raise e, after_google_request prompt model_name enterprise w)
  /\ invoke backend prompt "google-generativeai" model_name enterprise w
     = (Ok (PStr error_text),
        add_event (EvStError e)
          (after_google_request prompt model_name enterprise w)).
Proof.
  intros Hp He Hg.
  assert (Hh : _google_generate backend prompt model_name enterprise w
               = (Raise e, after_google_request prompt model_name enterprise w)).
  { run_router. rewrite Hg. cbn. rewrite He. reflexivity. }
  split; [exact Hh |].
  rewrite invoke_of_body, invoke_body_google by exact Hp.
  rewrite Hh. reflexivity.
Qed.

Lemma google_generate_lets_other_exceptions_through_witness :
  _google_generate
    (stub_backend (Raise (OtherException "ValueError('no valid part')"))
       (Ok (completion_of None)))
    "hi" "gemini-pro" false (sample_world "google-generativeai")
  = (Raise (OtherException "ValueError('no valid part')"),
     after_google_request "hi" "gemini-pro" false
       (sample_world "google-generativeai")).
Proof.
  apply (proj1 (google_generate_lets_other_exceptions_through
                  (stub_backend
                     (Raise (OtherException "ValueError('no valid part')"))
                     (Ok (completion_of None)))
                  "hi" "gemini-pro" false (sample_world "google-generativeai")
                  (OtherException "ValueError('no valid part')")
                  eq_refl eq_refl eq_refl)).
Defined.

(** X5: [_azure_generate] catches [openai.APIError] only.  Any other
    exception of the Azure client leaves the helper as it is, without a
    log entry, and [invoke] turns it into the generic string after
    reporting it with [st.error]. *)
Theorem azure_generate_lets_other_exceptions_through (backend : Backend)
    (prompt model_name : string) (enterprise : bool) (w : world) (e : exn) :
  str_truthy prompt = true ->
  as_OpenAIAPIError e = None ->
  chat_completions_create backend
    (azure_client_settings (secret_variables w) enterprise)
    model_name [("user", prompt)]
  = Raise e ->
  _azure_generate backend prompt model_name enterprise w
  = (Raise e, after_azure_request prompt model_name enterprise w)
  /\ invoke backend prompt "azure-openai" model_name enterprise w
     = (Ok (PStr error_text),
        add_event (EvStError e)
          (after_azure_request prompt model_name enterprise w)).
Proof.
  intros Hp He Ha.
  assert (Hh : _azure_generate backend prompt model_name enterprise w
               = (Raise e, after_azure_request prompt model_name enterprise w)).
  { run_router. rewrite Ha. cbn. rewrite He. reflexivity. }
  split; [exact Hh |].
  rewrite invoke_of_body, invoke_body_azure by exact Hp.
  rewrite Hh. reflexivity.
Qed.

Lemma azure_generate_lets_other_exceptions_through_witness :
  _azure_generate
    (stub_backend (Ok "hello") (Raise (OtherException "TimeoutError()")))
    "hi" "gpt-4o" true (sample_world "azure-openai")
  = (Raise (OtherException "TimeoutError()"),
     after_azure_request "hi" "gpt-4o" true (sample_world "azure-openai")).
Proof.
  apply (proj1 (azure_generate_lets_other_exceptions_through
                  (stub_backend (Ok "hello")
                     (Raise (OtherException "TimeoutError()")))
                  "hi" "gpt-4o" true (sample_world "azure-openai")
                  (OtherException "TimeoutError()")
                  eq_refl eq_refl eq_refl)).
Defined.

(** X6: a chat completion without any choice makes [choices[0]] raise
    [IndexError] inside [_azure_generate]; it is not an API error, so the
    helper lets it through and [invoke] answers with the generic string,
    reporting [IndexError] and not [NoResponseException]. *)
Theorem invoke_azure_no_choice (backend : Backend)
    (prompt model_name : string) (enterprise : bool) (w : world) :
  str_truthy prompt = true ->
  chat_completions_create backend
    (azure_client_settings (secret_variables w) enterprise)
    model_name [("user", prompt)]
  = Ok {| choices := [] |} ->
  invoke backend prompt "azure-openai" model_name enterprise w
  = (Ok (PStr error_text),
     add_event (EvStError IndexError)
       (after_azure_request prompt model_name enterprise w)).
Proof.
  intros Hp Ha. run_router. rewrite Hp. cbn. rewrite Ha. reflexivity.
Qed.

Lemma invoke_azure_no_choice_witness :
  invoke (stub_backend (Ok "hello") (Ok {| choices := [] |}))
    "hi" "azure-openai" "gpt-4o" false (sample_world "azure-openai")
  = (Ok (PStr error_text),
     add_event (EvStError IndexError)
       (after_azure_request "hi" "gpt-4o" false (sample_world "azure-openai"))).
Proof.
  apply (invoke_azure_no_choice
           (stub_backend (Ok "hello") (Ok {| choices := [] |}))
           "hi" "gpt-4o" false (sample_world "azure-openai")
           eq_refl eq_refl).
Defined.

(** ** run.py: one request per call, and what comes back *)

Lemma backend_calls_app (t u : list event) :
  backend_calls (t ++ u) = backend_calls t + backend_calls u.
Proof. unfold backend_calls. now rewrite List.filter_app, length_app. Qed.

(** Closes a goal that counts the requests of an explicit trace. *)
Ltac count_calls :=
  cbn -[backend_calls]; rewrite ?backend_calls_app; unfold backend_calls;
  cbn; lia.

Lemma invoke_request_count (backend : Backend)
    (prompt provider model_name : string) (enterprise : bool) (w : world) :
  backend_calls
    (trace (snd (invoke backend prompt provider model_name enterprise w)))
  = backend_calls (trace w)
    + (if str_truthy prompt && known_provider provider then 1 else 0).
Proof.
  unfold invoke, invoke_body, _google_generate, _azure_generate,
    model_generate_content, client_chat_completions_create, genai_configure,
    try_except, emit, read, lift, raise, as_Exception, known_provider,
    mbind, M_bind, mret, M_ret.
  destruct (str_truthy prompt); [| count_calls].
  destruct (String.eqb provider "google-generativeai"); cbn -[backend_calls].
  - destruct (generate_content backend _ model_name prompt) as [t | e];
      [count_calls |].
    destruct e; try count_calls. cbn -[backend_calls].
    destruct (handle_gemini_exception e) as [r | e']; [| count_calls].
    cbn -[backend_calls]. destruct (is_none r); count_calls.
  - destruct (String.eqb provider "azure-openai"); [| count_calls].
    cbn -[backend_calls].
    destruct (chat_completions_create backend _ model_name _) as [r | e];
      cbn -[backend_calls].
    + destruct (choices r) as [| c cs]; [count_calls |]. cbn -[backend_calls].
      destruct (is_none (option_to_pyval (content (message c))));
        count_calls.
    + destruct e; try count_calls. cbn -[backend_calls].
      destruct (handle_azure_exception e) as [r | e']; [| count_calls].
      cbn -[backend_calls]. destruct (is_none r); count_calls.
Qed.

(** X7: [invoke] sends exactly one request to a back end when the prompt
    is not empty and the provider is one of the two known ones, and none
    otherwise: whatever the back end answers, there is no second attempt. *)
Theorem invoke_sends_one_request (backend : Backend)
    (prompt provider model_name : string) (enterprise : bool) (w : world) :
  backend_calls
    (trace (snd (invoke backend prompt provider model_name enterprise w)))
  = backend_calls (trace w)
    + (if str_truthy prompt && known_provider provider then 1 else 0).
Proof. apply invoke_request_count. Qed.

(** The value the [try] block of [invoke] returns is never [None]. *)
Lemma invoke_body_not_none (backend : Backend)
    (prompt provider model_name : string) (enterprise : bool) (w w1 : world)
    (v : pyval) :
  invoke_body backend prompt provider model_name enterprise w = (Ok v, w1) ->
  is_none v = false.
Proof.
  unfold invoke_body.
  destruct (str_truthy prompt); [| intros [= <- _]; reflexivity].
  unfold mbind, M_bind, mret, M_ret, raise.
  destruct (String.eqb provider "google-generativeai").
  - destruct (_google_generate _ _ _ _ w) as [[r | e] w2]; [| discriminate].
    destruct (is_none r) eqn:Hr; [discriminate |]. now intros [= <- _].
  - destruct (String.eqb provider "azure-openai"); [| discriminate].
    destruct (_azure_generate _ _ _ _ w) as [[r | e] w2]; [| discriminate].
    destruct (is_none r) eqn:Hr; [discriminate |]. now intros [= <- _].
Qed.




(** ** run.py: what a call leaves behind *)

Section Frames.

Context {B : Type} (f : world -> B).
Hypothesis f_add_event : forall ev w, f (add_event ev w) = f w.

Lemma keeps_ret {A : Type} (a : A) : keeps f (mret a).
Proof. intros w. reflexivity. Qed.

Lemma keeps_raise {A : Type} (e : exn) : keeps f (@raise A e).
Proof. intros w. reflexivity. Qed.

Lemma keeps_lift {A : Type} (r : result A) : keeps f (lift r).
Proof. intros w. reflexivity. Qed.

Lemma keeps_read {A : Type} (g : world -> A) : keeps f (read g).
Proof. intros w. reflexivity. Qed.

Lemma keeps_emit (ev : event) : keeps f (emit ev).
Proof. intros w. apply f_add_event. Qed.

Lemma keeps_bind {A C : Type} (m : M A) (k : A -> M C) :
  keeps f m -> (forall a, keeps f (k a)) -> keeps f (m ≫= k).
Proof.
  intros Hm Hk w. unfold mbind, M_bind.
  specialize (Hm w). destruct (m w) as [[a | e] w']; cbn in *.
  - now rewrite Hk.
  - exact Hm.
Qed.

Lemma keeps_try_except {A X : Type} (body : M A) (select : exn -> option X)
    (handler : X -> M A) :
  keeps f body -> (forall x, keeps f (handler x)) ->
  keeps f (try_except body select handler).
Proof.
  intros Hb Hh w. unfold try_except.
  specialize (Hb w). destruct (body w) as [[a | e] w']; cbn in *.
  - exact Hb.
  - destruct (select e) as [x |]; cbn; [now rewrite Hh | exact Hb].
Qed.

(** Walks down a statement, as [preserves] does. *)
Ltac keeps_step :=
  repeat first
    [ apply keeps_ret | apply keeps_raise | apply keeps_lift
    | apply keeps_read | apply keeps_emit | assumption
    | apply keeps_bind; [| intros ?]
    | apply keeps_try_except; [| intros ?]
    | match goal with
      | |- keeps _ (if ?c then _ else _) => destruct c
      | |- keeps _ (match ?x with _ => _ end) => destruct x
      | |- keeps _ (let _ := _ in _) => cbv zeta
      end ].

Lemma keeps_for_each {A : Type} (l : list A) (body : A -> M unit) :
  (forall x, keeps f (body x)) -> keeps f (for_each l body).
Proof. intros Hb. induction l as [| x rest IH]; cbn; keeps_step. apply Hb. Qed.

Variable backend : Backend.

Lemma keeps_azure_generate (prompt model_name : string) (enterprise : bool) :
  keeps f (_azure_generate backend prompt model_name enterprise).
Proof.
  unfold _azure_generate, client_chat_completions_create. keeps_step.
Qed.

Hypothesis f_set_genai_config : forall c w, f (set_genai_config c w) = f w.

Lemma keeps_genai_configure (c : genai_settings) :
  keeps f (genai_configure c).
Proof.
  intros w. unfold genai_configure; cbn.
  now rewrite f_add_event, f_set_genai_config.
Qed.

Lemma keeps_google_generate (prompt model_name : string) (enterprise : bool) :
  keeps f (_google_generate backend prompt model_name enterprise).
Proof.
  unfold _google_generate, model_generate_content.
  keeps_step; apply keeps_genai_configure.
Qed.

Lemma keeps_invoke (prompt provider model_name : string) (enterprise : bool) :
  keeps f (invoke backend prompt provider model_name enterprise).
Proof.
  unfold invoke, invoke_body.
  apply keeps_try_except; [| intros ?; keeps_step].
  destruct (str_truthy prompt); [| keeps_step].
  apply keeps_bind; [| intros ?; keeps_step].
  destruct (String.eqb provider "google-generativeai").
  - apply keeps_bind; [apply keeps_google_generate | intros ?; keeps_step].
  - destruct (String.eqb provider "azure-openai"); [| keeps_step].
    apply keeps_bind; [apply keeps_azure_generate | intros ?; keeps_step].
Qed.

End Frames.

(** X10: [invoke] and the two helpers never touch the Streamlit session:
    the chat history, the selected provider, the selected model and the
    mode are after the call what they were before. *)
Theorem invoke_keeps_session (backend : Backend)
    (prompt provider model_name : string) (enterprise : bool) (w : world) :
  session (snd (invoke backend prompt provider model_name enterprise w))
  = session w
  /\ session (snd (_google_generate backend prompt model_name enterprise w))
     = session w
  /\ session (snd (_azure_generate backend prompt model_name enterprise w))
     = session w.
Proof.
  repeat split.
  - now apply (keeps_invoke session).
  - now apply (keeps_google_generate session).
  - now apply (keeps_azure_generate session).
Qed.

(** X11: the configuration of the [genai] package is global and a call
    leaves it behind.  After [invoke] with a non-empty prompt for
    "google-generativeai" the package stays configured with the settings
    of that call's mode, whatever the back end answered; every other call
    of [invoke], the Azure ones included, leaves the configuration as it
    was. *)
Theorem invoke_genai_config (backend : Backend)
    (prompt provider model_name : string) (enterprise : bool) (w : world) :
  genai_config (snd (invoke backend prompt provider model_name enterprise w))
  = if str_truthy prompt && String.eqb provider "google-generativeai"
    then Some (google_settings (secret_variables w) enterprise)
    else genai_config w.
Proof.
  run_router.
  destruct (str_truthy prompt); cbn; [| reflexivity].
  destruct (String.eqb provider "google-generativeai"); cbn.
  - destruct (generate_content backend _ model_name prompt) as [t | e];
      cbn; [reflexivity |].
    destruct e; cbn; try reflexivity.
    destruct (handle_gemini_exception e) as [r | e']; cbn; [| reflexivity].
    destruct (is_none r); reflexivity.
  - destruct (String.eqb provider "azure-openai"); cbn; [| reflexivity].
    destruct (chat_completions_create backend _ model_name _) as [r | e]; cbn.
    + destruct (choices r) as [| c cs]; cbn; [reflexivity |].
      destruct (is_none (option_to_pyval (content (message c))));
        reflexivity.
    + destruct e; cbn; try reflexivity.
      destruct (handle_azure_exception e) as [r | e']; cbn; [| reflexivity].
      destruct (is_none r); reflexivity.
Qed.

(** ** run.py: which secrets a mode uses *)

(** The result of [invoke] depends on the secrets only through the
    client settings of the mode. *)
Lemma invoke_result_depends_on_settings (backend : Backend)
    (prompt provider model_name : string) (enterprise : bool)
    (w1 w2 : world) :
  google_settings (secret_variables w1) enterprise
  = google_settings (secret_variables w2) enterprise ->
  azure_client_settings (secret_variables w1) enterprise
  = azure_client_settings (secret_variables w2) enterprise ->
  fst (invoke backend prompt provider model_name enterprise w1)
  = fst (invoke backend prompt provider model_name enterprise w2).
Proof.
  intros Hg Ha. run_router.
  destruct (str_truthy prompt); cbn; [| reflexivity].
  destruct (String.eqb provider "google-generativeai"); cbn.
  - rewrite Hg.
    destruct (generate_content backend _ model_name prompt) as [text | e];
      cbn; [reflexivity |].
    destruct e; cbn; try reflexivity.
    destruct (handle_gemini_exception e) as [r | e']; cbn; [| reflexivity].
    destruct (is_none r); reflexivity.
  - destruct (String.eqb provider "azure-openai"); cbn; [| reflexivity].
    rewrite Ha.
    destruct (chat_completions_create backend _ model_name _) as [r | e]; cbn.
    + destruct (choices r) as [| c cs]; cbn; [reflexivity |].
      destruct (is_none (option_to_pyval (content (message c))));
        reflexivity.
    + destruct e; cbn; try reflexivity.
      destruct (handle_azure_exception e) as [r | e']; cbn; [| reflexivity].
      destruct (is_none r); reflexivity.
Qed.

(** X12: in enterprise mode the answer of [invoke] depends on the Aether
    API key, the Aether proxy endpoint and the Azure API version only: the
    Google key, the Azure key, the Azure endpoint and the deployment name
    play no part, for either provider. *)
Theorem enterprise_mode_uses_proxy_secrets_only (backend : Backend)
    (prompt provider model_name : string) (w1 w2 : world) :
  aether_api_key (secret_variables w1) = aether_api_key (secret_variables w2) ->
  aether_proxy_endpoint (secret_variables w1)
  = aether_proxy_endpoint (secret_variables w2) ->
  azure_openai_api_version (secret_variables w1)
  = azure_openai_api_version (secret_variables w2) ->
  fst (invoke backend prompt provider model_name true w1)
  = fst (invoke backend prompt provider model_name true w2).
Proof.
  intros Hk He Hv. apply invoke_result_depends_on_settings; cbn;
    now rewrite ?Hk, ?He, ?Hv.
Qed.

(** X13: in direct mode the answer of [invoke] depends on the Google API
    key, the Azure API key, the Azure endpoint and the Azure API version
    only: the Aether key and the Aether proxy endpoint play no part. *)
Theorem direct_mode_ignores_proxy_secrets (backend : Backend)
    (prompt provider model_name : string) (w1 w2 : world) :
  google_api_key (secret_variables w1) = google_api_key (secret_variables w2) ->
  azure_api_key (secret_variables w1) = azure_api_key (secret_variables w2) ->
  azure_endpoint (secret_variables w1) = azure_endpoint (secret_variables w2) ->
  azure_openai_api_version (secret_variables w1)
  = azure_openai_api_version (secret_variables w2) ->
  fst (invoke backend prompt provider model_name false w1)
  = fst (invoke backend prompt provider model_name false w2).
Proof.
  intros Hg Hk He Hv. apply invoke_result_depends_on_settings; cbn;
    now rewrite ?Hg, ?Hk, ?He, ?Hv.
Qed.

Lemma enterprise_mode_uses_proxy_secrets_only_witness :
  fst (invoke echo_backend "hi" "azure-openai" "gpt-4o" true
         (world_with sample_secrets "azure-openai"))
  = fst (invoke echo_backend "hi" "azure-openai" "gpt-4o" true
           (world_with other_vendor_secrets "azure-openai")).
Proof.
  apply (enterprise_mode_uses_proxy_secrets_only echo_backend
           "hi" "azure-openai" "gpt-4o"
           (world_with sample_secrets "azure-openai")
           (world_with other_vendor_secrets "azure-openai")
           eq_refl eq_refl eq_refl).
Defined.

Lemma direct_mode_ignores_proxy_secrets_witness :
  fst (invoke echo_backend "hi" "google-generativeai" "gemini-pro" false
         (world_with sample_secrets "google-generativeai"))
  = fst (invoke echo_backend "hi" "google-generativeai" "gemini-pro" false
           (world_with other_proxy_secrets "google-generativeai")).
Proof.
  apply (direct_mode_ignores_proxy_secrets echo_backend
           "hi" "google-generativeai" "gemini-pro"
           (world_with sample_secrets "google-generativeai")
           (world_with other_proxy_secrets "google-generativeai")
           eq_refl eq_refl eq_refl eq_refl).
Defined.

(** ** run.py: one chat turn and the replay of the history *)

(** The world in which the handler of a chat turn calls [invoke]: the
    prompt of the user has been stored and shown. *)
Lemma chat_turn_known_provider (backend : Backend) (prompt model_name : string)
    (w : world) :
  str_truthy prompt = true ->
  turn_model_name w = Some model_name ->
  chat_turn backend prompt w
  = match
      invoke backend prompt (llm_provider (session w)) model_name
        (is_enterprise_mode (session w))
        (add_event (EvStMarkdown "user" (PStr prompt))
           (add_message ("user", PStr prompt) w))
    with
    | (Ok r, w2) =>
        (Ok tt,
         add_message ("assistant", r)
           (add_event (EvStMarkdown "assistant" r) w2))
    | (Raise e, w2) => (Raise e, w2)
    end.
Proof.
  intros Hp Hm. unfold turn_model_name in Hm.
  unfold chat_turn, known_provider, append_message, emit, read, raise,
    mbind, M_bind, mret, M_ret.
  rewrite Hp. cbn -[invoke].
  destruct (String.eqb (llm_provider (session w)) "google-generativeai").
  - cbn -[invoke]. rewrite Hm. cbn -[invoke].
    destruct (invoke _ _ _ _ _ _) as [[r | e] w2]; reflexivity.
  - destruct (String.eqb (llm_provider (session w)) "azure-openai");
      [| discriminate Hm].
    injection Hm as <-. cbn -[invoke].
    destruct (invoke _ _ _ _ _ _) as [[r | e] w2]; reflexivity.
Qed.

Lemma chat_turn_completes (backend : Backend) (prompt model_name : string)
    (w : world) :
  str_truthy prompt = true ->
  turn_model_name w = Some model_name ->
  exists r w',
    chat_turn backend prompt w = (Ok tt, w')
    /\ fst (invoke backend prompt (llm_provider (session w)) model_name
              (is_enterprise_mode (session w)) w)
       = Ok r
    /\ r <> PNone
    /\ messages (session w')
       = (messages (session w)
          ++ [("user", PStr prompt); ("assistant", r)])%list.
Proof.
  intros Hp Hm. rewrite (chat_turn_known_provider _ _ _ _ Hp Hm).
  set (w1 := add_event _ (add_message _ w)).
  pose proof (invoke_result_independent backend prompt
                (llm_provider (session w)) model_name
                (is_enterprise_mode (session w)) w1 w eq_refl) as Hi.
  pose proof (keeps_invoke session ltac:(reflexivity) backend
                ltac:(reflexivity) prompt (llm_provider (session w))
                model_name (is_enterprise_mode (session w)) w1) as Hs.
  rewrite invoke_of_body in Hi, Hs |- *.
  destruct (invoke_body _ _ _ _ _ w1) as [[r | e] w2] eqn:Hb; cbn in Hi, Hs.
  - exists r; eexists. split; [reflexivity |]. split; [now rewrite <- Hi |].
    split.
    + apply invoke_body_not_none in Hb. intros ->. discriminate Hb.
    + cbn. rewrite Hs. cbn. now rewrite <- app_assoc.
  - exists (PStr error_text); eexists. split; [reflexivity |].
    split; [now rewrite <- Hi |]. split; [discriminate |].
    cbn. rewrite Hs. cbn. now rewrite <- app_assoc.
Qed.

(** X14: for a non-empty prompt and a known provider whose model name is
    at hand, the handler of a chat turn never raises, and it extends the
    chat history by exactly two messages: the prompt under the role "user"
    and, under the role "assistant", the value [invoke] gives for the
    selected provider, model and mode, which is never [None]. *)
Theorem chat_turn_appends_exchange (backend : Backend)
    (prompt model_name : string) (w : world) :
  str_truthy prompt = true ->
  turn_model_name w = Some model_name ->
  exists r w',
    chat_turn backend prompt w = (Ok tt, w')
    /\ fst (invoke backend prompt (llm_provider (session w)) model_name
              (is_enterprise_mode (session w)) w)
       = Ok r
    /\ r <> PNone
    /\ messages (session w')
       = (messages (session w)
          ++ [("user", PStr prompt); ("assistant", r)])%list.
Proof. apply chat_turn_completes. Qed.

Lemma chat_turn_appends_exchange_witness :
  exists r w',
    chat_turn (stub_backend (Ok "hello") (Ok (completion_of None)))
      "hi" (sample_world "google-generativeai")
    = (Ok tt, w')
    /\ fst (invoke (stub_backend (Ok "hello") (Ok (completion_of None)))
              "hi" "google-generativeai" "gemini-1.5-flash" false
              (sample_world "google-generativeai"))
       = Ok r
    /\ r <> PNone
    /\ messages (session w')
       = ([("assistant", PStr "How may I assist you today?")]
          ++ [("user", PStr "hi"); ("assistant", r)])%list.
Proof.
  apply (chat_turn_appends_exchange
           (stub_backend (Ok "hello") (Ok (completion_of None)))
           "hi" "gemini-1.5-flash" (sample_world "google-generativeai")
           eq_refl eq_refl).
Defined.

Lemma for_each_markdown (msgs : list (string * pyval)) (w : world) :
  fst (for_each msgs (fun m => emit (EvStMarkdown (fst m) (snd m))) w) = Ok tt
  /\ trace (snd (for_each msgs
                   (fun m => emit (EvStMarkdown (fst m) (snd m))) w))
     = (trace w ++ markdown_events msgs)%list.
Proof.
  revert w. induction msgs as [| m rest IH]; intros w; cbn.
  - split; [reflexivity | now rewrite app_nil_r].
  - destruct (IH (add_event (EvStMarkdown (fst m) (snd m)) w)) as [Hr Ht].
    split; [exact Hr |].
    etransitivity; [exact Ht |]. cbn. now rewrite <- app_assoc.
Qed.

Lemma display_history_trace (w : world) :
  fst (display_history w) = Ok tt
  /\ trace (snd (display_history w))
     = (trace w ++ markdown_events (messages (session w)))%list
  /\ session (snd (display_history w)) = session w.
Proof.
  unfold display_history, read, mbind, M_bind; cbn.
  destruct (for_each_markdown (messages (session w)) w) as [Hr Ht].
  split; [exact Hr | split; [exact Ht |]].
  apply (keeps_for_each session).
  intros x. now apply keeps_emit.
Qed.

(** X15: the loop over the chat history never raises, shows every stored
    message once, in the order of the history, with its role and its
    response, and leaves the session as it is. *)
Theorem display_history_replays_messages (w : world) :
  fst (display_history w) = Ok tt
  /\ trace (snd (display_history w))
     = (trace w ++ markdown_events (messages (session w)))%list
  /\ session (snd (display_history w)) = session w.
Proof. apply display_history_trace. Qed.

(** X16: what a completed chat turn stored is what the next run of the
    script replays: after the turn, the loop over the history shows the
    earlier messages, then the prompt of the user, then the response of
    [invoke]. *)
Theorem display_history_after_chat_turn (backend : Backend)
    (prompt model_name : string) (w : world) :
  str_truthy prompt = true ->
  turn_model_name w = Some model_name ->
  exists r,
    fst (invoke backend prompt (llm_provider (session w)) model_name
           (is_enterprise_mode (session w)) w)
    = Ok r
    /\ trace (snd (display_history (snd (chat_turn backend prompt w))))
       = (trace (snd (chat_turn backend prompt w))
          ++ markdown_events (messages (session w))
          ++ [EvStMarkdown "user" (PStr prompt); EvStMarkdown "assistant" r])%list.
Proof.
  intros Hp Hm.
  destruct (chat_turn_completes backend prompt model_name w Hp Hm)
    as (r & w' & Hc & Hi & _ & Hmsgs).
  exists r. split; [exact Hi |].
  rewrite Hc; cbn.
  destruct (display_history_trace w') as (_ & Ht & _).
  rewrite Ht, Hmsgs. unfold markdown_events. now rewrite map_app.
Qed.

Lemma display_history_after_chat_turn_witness :
  exists r,
    fst (invoke (stub_backend (Ok "hello") (Ok (completion_of (Some "hi there"))))
           "hi" "azure-openai" "gpt-4o" false (sample_world "azure-openai"))
    = Ok r
    /\ trace (snd (display_history
                     (snd (chat_turn
                             (stub_backend (Ok "hello")
                                (Ok (completion_of (Some "hi there"))))
                             "hi" (sample_world "azure-openai")))))
       = (trace (snd (chat_turn
                        (stub_backend (Ok "hello")
                           (Ok (completion_of (Some "hi there"))))
                        "hi" (sample_world "azure-openai")))
          ++ markdown_events
               [("assistant", PStr "How may I assist you today?")]
          ++ [EvStMarkdown "user" (PStr "hi"); EvStMarkdown "assistant" r])%list.
Proof.
  apply (display_history_after_chat_turn
           (stub_backend (Ok "hello") (Ok (completion_of (Some "hi there"))))
           "hi" "gpt-4o" (sample_world "azure-openai") eq_refl eq_refl).
Defined.

(** ** run.py: the secrets read from the environment *)

(** X17: the construction of [secret_variables] succeeds exactly when the
    six variables without a default are all set; the Azure API version is
    never required. *)
Theorem load_secret_variables_succeeds_iff (env : gmap string string) :
  is_Some (load_secret_variables env)
  <-> Forall (fun name => is_Some (env !! name)) required_variables.
Proof.
  unfold load_secret_variables, required_variables.
  rewrite !Forall_cons, Forall_nil.
  destruct (env !! "AETHER_API_KEY"), (env !! "AETHER_PROXY_ENDPOINT"),
    (env !! "AZURE_API_KEY"), (env !! "AZURE_ENDPOINT"),
    (env !! "AZURE_PROVIDER_MODEL"), (env !! "GOOGLE_API_KEY"); cbn;
    rewrite ?is_Some_alt; tauto.
Qed.

(** X18: every field of the loaded secrets is the value of its variable,
    the deployment name being the one of [AZURE_PROVIDER_MODEL], and the
    Azure API version is "2024-02-01" when [AZURE_OPENAI_API_VERSION] is
    not set. *)
Theorem load_secret_variables_fields (env : gmap string string)
    (sv : SecretVariables) :
  load_secret_variables env = Some sv ->
  env !! "AETHER_API_KEY" = Some (aether_api_key sv)
  /\ env !! "AETHER_PROXY_ENDPOINT" = Some (aether_proxy_endpoint sv)
  /\ env !! "AZURE_API_KEY" = Some (azure_api_key sv)
  /\ env !! "AZURE_ENDPOINT" = Some (azure_endpoint sv)
  /\ env !! "AZURE_PROVIDER_MODEL" = Some (azure_provider_deployment sv)
  /\ env !! "GOOGLE_API_KEY" = Some (google_api_key sv)
  /\ azure_openai_api_version sv
     = default "2024-02-01" (env !! "AZURE_OPENAI_API_VERSION").
Proof.
  unfold load_secret_variables.
  destruct (env !! "AETHER_API_KEY"), (env !! "AETHER_PROXY_ENDPOINT"),
    (env !! "AZURE_API_KEY"), (env !! "AZURE_ENDPOINT"),
    (env !! "AZURE_PROVIDER_MODEL"), (env !! "GOOGLE_API_KEY"); cbn;
    try discriminate.
  intros [= <-]. cbn. repeat split.
Qed.

(** X19: an environment that holds the seven variables of some secrets
    loads back to exactly these secrets. *)
Theorem load_secret_variables_env_of (sv : SecretVariables) :
  load_secret_variables (env_of sv) = Some sv.
Proof. destruct sv. reflexivity. Qed.

(** X20: a chat turn sends exactly one request to a back end when the
    prompt is not empty and the model name of a known provider is at hand;
    it sends none for an empty prompt, for an unknown provider and for a
    Gemini turn without a selected model. *)
Theorem chat_turn_sends_one_request (backend : Backend) (prompt : string)
    (w : world) :
  backend_calls (trace (snd (chat_turn backend prompt w)))
  = backend_calls (trace w)
    + (if str_truthy prompt
       then match turn_model_name w with Some _ => 1 | None => 0 end
       else 0).
Proof.
  destruct (str_truthy prompt) eqn:Hp.
  - destruct (turn_model_name w) as [model_name |] eqn:Hm.
    + rewrite (chat_turn_known_provider _ _ _ _ Hp Hm).
      pose proof (invoke_request_count backend prompt
                    (llm_provider (session w)) model_name
                    (is_enterprise_mode (session w))
                    (add_event (EvStMarkdown "user" (PStr prompt))
                       (add_message ("user", PStr prompt) w))) as Hc.
      assert (Hk : known_provider (llm_provider (session w)) = true).
      { unfold turn_model_name in Hm. unfold known_provider.
        destruct (String.eqb (llm_provider (session w)) "google-generativeai");
          [reflexivity |].
        destruct (String.eqb (llm_provider (session w)) "azure-openai");
          [reflexivity | discriminate Hm]. }
      rewrite Hp, Hk in Hc. cbn -[backend_calls invoke] in Hc.
      rewrite backend_calls_app in Hc.
      destruct (invoke _ _ _ _ _ _) as [[r | e] w2];
        cbn -[backend_calls] in *; rewrite ?backend_calls_app;
        unfold backend_calls in *; cbn in *; lia.
    + unfold turn_model_name in Hm.
      unfold chat_turn, known_provider, append_message, emit, read, raise,
        mbind, M_bind, mret, M_ret.
      rewrite Hp. cbn -[backend_calls invoke].
      destruct (String.eqb (llm_provider (session w)) "google-generativeai").
      * cbn -[backend_calls invoke]. rewrite Hm. count_calls.
      * destruct (String.eqb (llm_provider (session w)) "azure-openai");
          [discriminate Hm | count_calls].
  - unfold chat_turn. rewrite Hp. count_calls.
Qed.

Lemma load_secret_variables_fields_witness :
  env_of sample_secrets !! "AETHER_API_KEY" = Some (aether_api_key sample_secrets)
  /\ env_of sample_secrets !! "AETHER_PROXY_ENDPOINT"
     = Some (aether_proxy_endpoint sample_secrets)
  /\ env_of sample_secrets !! "AZURE_API_KEY"
     = Some (azure_api_key sample_secrets)
  /\ env_of sample_secrets !! "AZURE_ENDPOINT"
     = Some (azure_endpoint sample_secrets)
  /\ env_of sample_secrets !! "AZURE_PROVIDER_MODEL"
     = Some (azure_provider_deployment sample_secrets)
  /\ env_of sample_secrets !! "GOOGLE_API_KEY"
     = Some (google_api_key sample_secrets)
  /\ azure_openai_api_version sample_secrets
     = default "2024-02-01" (env_of sample_secrets !! "AZURE_OPENAI_API_VERSION").
Proof.
  apply (load_secret_variables_fields (env_of sample_secrets) sample_secrets
           eq_refl).
Defined.
